(** * The tokenizer wrapper of llguidance, [python/llguidance/_tokenizer.py]

    A shallow embedding of the class [TokenizerWrapper]: its constructor
    [__init__], the helper [_encode_string] and the call operator [__call__],
    followed by the properties of the wrapper that its specification states.

    The wrapped tokenizer is an arbitrary callable of the host program.  It is
    modelled as a transition function on a state of its own, so that it may
    answer differently from one call to the next and may raise on any input.
    The wrapper is an object whose attributes are assigned one by one by
    [__init__]; the methods run in a state-and-exception monad over the pair of
    the tokenizer's state and the wrapper's attributes. *)

From Stdlib Require Import List ZArith NArith Bool String Lia.
From Stdlib.Strings Require Import Byte.
Import ListNotations.

Local Open Scope N_scope.

(** ** Python values used by the wrapper *)

(** [TokenId] is [int] in [_util.py]. *)
Definition TokenId : Type := Z.

(** A [bytes] object. *)
Definition bytes : Type := list byte.

(** A [str] object: a sequence of Unicode code points, each below [0x110000].
    Code points [0xD800] to [0xDFFF] (surrogates) may occur in a [str]. *)
Definition str : Type := list N.

(** What the wrapper hands to the wrapped tokenizer: [bytes] or [str]. *)
Inductive pyarg : Type :=
| PyBytes (b : bytes)
| PyStr (s : str).

(** Exceptions.  [AssertionError None] is what an [assert] statement without a
    message expression raises; [Exception] stands for any other exception
    class, which the wrapped tokenizer is free to raise. *)
Inductive exception : Type :=
| AssertionError (msg : option string)
| AttributeError (name : string)
| UnicodeEncodeError (start : nat)
| Exception (cls : string) (msg : string).

(** The outcome of evaluating an expression or running a statement. *)
Inductive outcome (A : Type) : Type :=
| Return (a : A)
| Raise (e : exception).

Arguments Return {A} a.
Arguments Raise {A} e.

Definition is_return {A : Type} (r : outcome A) : bool :=
  match r with
  | Return _ => true
  | Raise _ => false
  end.

(** ** [str.encode("utf-8")] *)

Definition byte_of_N (n : N) : byte :=
  match Byte.of_N n with
  | Some b => b
  | None => x00
  end.

(** The UTF-8 encoding of one code point; [None] for a surrogate, which the
    strict error handler refuses. *)
Definition utf8_encode_char (c : N) : option bytes :=
  if c <? 0x80 then
    Some [byte_of_N c]
  else if c <? 0x800 then
    Some [byte_of_N (N.lor 0xC0 (N.shiftr c 6));
          byte_of_N (N.lor 0x80 (N.land c 0x3F))]
  else if (0xD800 <=? c) && (c <? 0xE000) then
    None
  else if c <? 0x10000 then
    Some [byte_of_N (N.lor 0xE0 (N.shiftr c 12));
          byte_of_N (N.lor 0x80 (N.land (N.shiftr c 6) 0x3F));
          byte_of_N (N.lor 0x80 (N.land c 0x3F))]
  else
    Some [byte_of_N (N.lor 0xF0 (N.shiftr c 18));
          byte_of_N (N.lor 0x80 (N.land (N.shiftr c 12) 0x3F));
          byte_of_N (N.lor 0x80 (N.land (N.shiftr c 6) 0x3F));
          byte_of_N (N.lor 0x80 (N.land c 0x3F))].

(** Encoding from position [i] on; the first surrogate met raises
    [UnicodeEncodeError] with its position. *)
Fixpoint utf8_encode_from (i : nat) (s : str) : outcome bytes :=
  match s with
  | [] => Return []
  | c :: s' =>
      match utf8_encode_char c with
      | None => Raise (UnicodeEncodeError i)
      | Some bs =>
          match utf8_encode_from (S i) s' with
          | Return r => Return (bs ++ r)
          | Raise e => Raise e
          end
      end
  end.

(** [s.encode("utf-8")] *)
Definition str_encode_utf8 (s : str) : outcome bytes := utf8_encode_from 0 s.

(** ** List operations *)

(** [l1 == l2] on lists of integers. *)
Fixpoint list_eq (l1 l2 : list TokenId) : bool :=
  match l1, l2 with
  | [], [] => true
  | x :: l1', y :: l2' => Z.eqb x y && list_eq l1' l2'
  | _, _ => false
  end.

(** [l[:n]] for an index [n] that is a length, hence not negative: the first
    [n] entries, or all of [l] when it has fewer. *)
Definition slice_to (n : nat) (l : list TokenId) : list TokenId := firstn n l.

(** [l[n:]] for such an [n]: [l] without its first [n] entries, empty when [l]
    has fewer. *)
Definition slice_from (n : nat) (l : list TokenId) : list TokenId := skipn n l.

(** The literal [b"test"]. *)
Definition b_test : bytes := [x74; x65; x73; x74].

Section Wrapper.

(** The internal state of the wrapped tokenizer. *)
Variable St : Type.

(** The object handed to the constructor: calling it with an argument, in some
    state, returns token ids or raises, and leaves the tokenizer in a new
    state; it has the attributes [eos_token_id], [bos_token_id] and [tokens]. *)
Record Tokenizer : Type := {
  tk_call : pyarg -> St -> outcome (list TokenId) * St;
  tk_eos_token_id : TokenId;
  tk_bos_token_id : option TokenId;
  tk_tokens : list bytes
}.

(** The attributes of a [TokenizerWrapper] instance; [None] is an attribute
    that no assignment has created yet. *)
Record TokenizerWrapper : Type := {
  gtokenizer : option Tokenizer;
  eos_token_id : option TokenId;
  bos_token_id : option (option TokenId);
  tokens : option (list bytes);
  accepts_bytes : option bool;
  prefix_string : option str;
  prefix_tokens : option (list TokenId)
}.

(** The object [object.__new__] returns, before [__init__] runs. *)
Definition fresh_instance : TokenizerWrapper :=
  {| gtokenizer := None; eos_token_id := None; bos_token_id := None;
     tokens := None; accepts_bytes := None; prefix_string := None;
     prefix_tokens := None |}.

(** What a method of the wrapper can read and change. *)
Record World : Type := {
  tok_state : St;
  self : TokenizerWrapper
}.

(** ** The monad of the methods *)

Definition M (A : Type) : Type := World -> outcome A * World.

Definition ret {A : Type} (a : A) : M A := fun w => (Return a, w).

Definition raise {A : Type} (e : exception) : M A := fun w => (Raise e, w).

Definition bind {A B : Type} (m : M A) (k : A -> M B) : M B :=
  fun w =>
    match m w with
    | (Return a, w') => k a w'
    | (Raise e, w') => (Raise e, w')
    end.

(** [try: m except: h] with a bare [except], which catches every exception. *)
Definition try_except (m : M unit) (h : M unit) : M unit :=
  fun w =>
    match m w with
    | (Return a, w') => (Return a, w')
    | (Raise _, w') => h w'
    end.

(** An expression that touches neither the tokenizer nor the wrapper. *)
Definition eval {A : Type} (r : outcome A) : M A := fun w => (r, w).

(** [assert c] *)
Definition py_assert (c : bool) : M unit :=
  if c then ret tt else raise (AssertionError None).

(** [self.<name>] *)
Definition getattr {A : Type} (field : TokenizerWrapper -> option A)
    (name : string) : M A :=
  fun w =>
    match field (self w) with
    | Some v => (Return v, w)
    | None => (Raise (AttributeError name), w)
    end.

(** [self.<name> = v], given as the update of the attributes. *)
Definition setattr (upd : TokenizerWrapper -> TokenizerWrapper) : M unit :=
  fun w => (Return tt, {| tok_state := tok_state w; self := upd (self w) |}).

(** [g(x)] for the wrapped tokenizer [g]. *)
Definition call (g : Tokenizer) (x : pyarg) : M (list TokenId) :=
  fun w =>
    let (r, st) := tk_call g x (tok_state w) in
    (r, {| tok_state := st; self := self w |}).

Notation "x <- m ;; k" := (bind m (fun x => k))
  (at level 61, m at next level, right associativity).
Notation "m ;;; k" := (bind m (fun _ => k))
  (at level 61, right associativity).

(** ** Attribute assignments *)

Definition set_gtokenizer (v : Tokenizer) (a : TokenizerWrapper) :=
  {| gtokenizer := Some v; eos_token_id := eos_token_id a;
     bos_token_id := bos_token_id a; tokens := tokens a;
     accepts_bytes := accepts_bytes a; prefix_string := prefix_string a;
     prefix_tokens := prefix_tokens a |}.

Definition set_eos_token_id (v : TokenId) (a : TokenizerWrapper) :=
  {| gtokenizer := gtokenizer a; eos_token_id := Some v;
     bos_token_id := bos_token_id a; tokens := tokens a;
     accepts_bytes := accepts_bytes a; prefix_string := prefix_string a;
     prefix_tokens := prefix_tokens a |}.

Definition set_bos_token_id (v : option TokenId) (a : TokenizerWrapper) :=
  {| gtokenizer := gtokenizer a; eos_token_id := eos_token_id a;
     bos_token_id := Some v; tokens := tokens a;
     accepts_bytes := accepts_bytes a; prefix_string := prefix_string a;
     prefix_tokens := prefix_tokens a |}.

Definition set_tokens (v : list bytes) (a : TokenizerWrapper) :=
  {| gtokenizer := gtokenizer a; eos_token_id := eos_token_id a;
     bos_token_id := bos_token_id a; tokens := Some v;
     accepts_bytes := accepts_bytes a; prefix_string := prefix_string a;
     prefix_tokens := prefix_tokens a |}.

Definition set_accepts_bytes (v : bool) (a : TokenizerWrapper) :=
  {| gtokenizer := gtokenizer a; eos_token_id := eos_token_id a;
     bos_token_id := bos_token_id a; tokens := tokens a;
     accepts_bytes := Some v; prefix_string := prefix_string a;
     prefix_tokens := prefix_tokens a |}.

Definition set_prefix_string (v : str) (a : TokenizerWrapper) :=
  {| gtokenizer := gtokenizer a; eos_token_id := eos_token_id a;
     bos_token_id := bos_token_id a; tokens := tokens a;
     accepts_bytes := accepts_bytes a; prefix_string := Some v;
     prefix_tokens := prefix_tokens a |}.

Definition set_prefix_tokens (v : list TokenId) (a : TokenizerWrapper) :=
  {| gtokenizer := gtokenizer a; eos_token_id := eos_token_id a;
     bos_token_id := bos_token_id a; tokens := tokens a;
     accepts_bytes := accepts_bytes a; prefix_string := prefix_string a;
     prefix_tokens := Some v |}.

(** ** The methods of [TokenizerWrapper] *)

(** <<
    def _encode_string(self, s: str) -> List[TokenId]:
        if self.accepts_bytes:
            return self.gtokenizer(s.encode("utf-8"))
        else:
            return self.gtokenizer(s)
    >> *)
Definition _encode_string (s : str) : M (list TokenId) :=
  ab <- getattr accepts_bytes "accepts_bytes" ;;
  if ab : bool then
    g <- getattr gtokenizer "gtokenizer" ;;
    b <- eval (str_encode_utf8 s) ;;
    call g (PyBytes b)
  else
    g <- getattr gtokenizer "gtokenizer" ;;
    call g (PyStr s).

(** <<
    def __init__(self, gtokenizer) -> None:
        self.gtokenizer = gtokenizer
        self.eos_token_id = gtokenizer.eos_token_id
        self.bos_token_id = gtokenizer.bos_token_id
        self.tokens = gtokenizer.tokens
        self.accepts_bytes = True
        try:
            gtokenizer(b"test")
        except:
            self.accepts_bytes = False
        self.prefix_string = "\x02"
        self.prefix_tokens = self._encode_string(self.prefix_string)
    >> *)
Definition __init__ (g : Tokenizer) : M unit :=
  setattr (set_gtokenizer g) ;;;
  setattr (set_eos_token_id (tk_eos_token_id g)) ;;;
  setattr (set_bos_token_id (tk_bos_token_id g)) ;;;
  setattr (set_tokens (tk_tokens g)) ;;;
  setattr (set_accepts_bytes true) ;;;
  try_except
    (call g (PyBytes b_test) ;;; ret tt)
    (setattr (set_accepts_bytes false)) ;;;
  setattr (set_prefix_string [0x02]) ;;;
  p <- getattr prefix_string "prefix_string" ;;
  v <- _encode_string p ;;
  setattr (set_prefix_tokens v).

(** <<
    def __call__(self, s: str):
        tokens = self._encode_string(self.prefix_string + s)
        assert tokens[: len(self.prefix_tokens)] == self.prefix_tokens
        return tokens[len(self.prefix_tokens) :]
    >>
    The [assert] statement is executed, as it is unless the interpreter runs
    with [-O]. *)
Definition __call__ (s : str) : M (list TokenId) :=
  p <- getattr prefix_string "prefix_string" ;;
  tokens <- _encode_string (p ++ s) ;;
  pt1 <- getattr prefix_tokens "prefix_tokens" ;;
  pt2 <- getattr prefix_tokens "prefix_tokens" ;;
  py_assert (list_eq (slice_to (List.length pt1) tokens) pt2) ;;;
  pt3 <- getattr prefix_tokens "prefix_tokens" ;;
  ret (slice_from (List.length pt3) tokens).

(** [TokenizerWrapper(g)], evaluated when the tokenizer is in state [st]: a
    new instance is made, [__init__] runs on it, and the instance is the value
    of the expression unless [__init__] raised. *)
Definition TokenizerWrapper_new (g : Tokenizer) (st : St)
    : outcome TokenizerWrapper * St :=
  match __init__ g {| tok_state := st; self := fresh_instance |} with
  | (Return _, w) => (Return (self w), tok_state w)
  | (Raise e, w) => (Raise e, tok_state w)
  end.

(** A caller that encodes the texts [ts] one after the other on the same
    wrapper, going on after a call that raised; the world it ends in. *)
Fixpoint encode_all (ts : list str) (w : World) : World :=
  match ts with
  | [] => w
  | t :: ts' => encode_all ts' (snd (__call__ t w))
  end.

End Wrapper.

Arguments tk_call {St} t x st.
Arguments tk_eos_token_id {St} t.
Arguments tk_bos_token_id {St} t.
Arguments tk_tokens {St} t.
Arguments gtokenizer {St} t.
Arguments eos_token_id {St} t.
Arguments bos_token_id {St} t.
Arguments tokens {St} t.
Arguments accepts_bytes {St} t.
Arguments prefix_string {St} t.
Arguments prefix_tokens {St} t.
Arguments tok_state {St} w.
Arguments self {St} w.
Arguments Build_World {St} tok_state self.
Arguments fresh_instance {St}.
Arguments set_gtokenizer {St} v a.
Arguments set_eos_token_id {St} v a.
Arguments set_bos_token_id {St} v a.
Arguments set_tokens {St} v a.
Arguments set_accepts_bytes {St} v a.
Arguments set_prefix_string {St} v a.
Arguments set_prefix_tokens {St} v a.
Arguments ret {St A} a w.
Arguments raise {St A} e w.
Arguments bind {St A B} m k w.
Arguments try_except {St} m h w.
Arguments eval {St A} r w.
Arguments py_assert {St} c w.
Arguments getattr {St A} field name w.
Arguments setattr {St} upd w.
Arguments call {St} g x w.
Arguments _encode_string {St} s w.
Arguments __init__ {St} g w.
Arguments __call__ {St} s w.
Arguments TokenizerWrapper_new {St} g st.
Arguments encode_all {St} ts w.

Notation "x <- m ;; k" := (bind m (fun x => k))
  (at level 61, m at next level, right associativity).
Notation "m ;;; k" := (bind m (fun _ => k))
  (at level 61, right associativity).

(** ** Wrappers and tokenizers the properties speak of *)

(** The attributes a completed [__init__] leaves on an instance made for the
    tokenizer [g], with [ab] found by the probe and [pt] by the encoding of
    the sentinel. *)
Definition initialised {St : Type} (g : Tokenizer St) (ab : bool)
    (pt : list TokenId) : TokenizerWrapper St :=
  {| gtokenizer := Some g;
     eos_token_id := Some (tk_eos_token_id g);
     bos_token_id := Some (tk_bos_token_id g);
     tokens := Some (tk_tokens g);
     accepts_bytes := Some ab;
     prefix_string := Some [0x02];
     prefix_tokens := Some pt |}.

(** [a] is the value of [TokenizerWrapper(g)], evaluated in some state of [g]. *)
Definition constructed {St : Type} (g : Tokenizer St)
    (a : TokenizerWrapper St) : Prop :=
  exists st st', TokenizerWrapper_new g st = (Return a, st').

(** The argument of the second call of [__init__] to the tokenizer, the one
    that encodes the sentinel: [b"\x02"] or ["\x02"]. *)
Definition sentinel_arg (ab : bool) : pyarg :=
  if ab then PyBytes [x02] else PyStr [0x02].

(** The argument [_encode_string] computes for the tokenizer from the text
    [s], when [self.accepts_bytes] is [ab]: [s.encode("utf-8")], which may
    raise, or [s] itself. *)
Definition tokenizer_arg (ab : bool) (s : str) : outcome pyarg :=
  if ab then
    match str_encode_utf8 s with
    | Return b => Return (PyBytes b)
    | Raise e => Raise e
    end
  else Return (PyStr s).

(** A tokenizer that takes [bytes]: it returns for every such argument, in
    every state. *)
Definition takes_bytes {St : Type} (g : Tokenizer St) : Prop :=
  forall b st, is_return (fst (tk_call g (PyBytes b) st)) = true.

(** A tokenizer that raises on every [bytes] argument. *)
Definition refuses_bytes {St : Type} (g : Tokenizer St) : Prop :=
  forall b st, is_return (fst (tk_call g (PyBytes b) st)) = false.

(** A tokenizer that takes [str]. *)
Definition takes_str {St : Type} (g : Tokenizer St) : Prop :=
  forall s st, is_return (fst (tk_call g (PyStr s) st)) = true.

(** A tokenizer that behaves as a fixed function: what a call returns or
    raises does not depend on the state the tokenizer is in. *)
Definition fixed_function {St : Type} (g : Tokenizer St) : Prop :=
  forall x st st', fst (tk_call g x st) = fst (tk_call g x st').

(** A computation that assigns no attribute of the wrapper. *)
Definition keeps_self {St A : Type} (m : M St A) : Prop :=
  forall w, self (snd (m w)) = self w.

(** Concrete tokenizers.  Their state is the number of calls received. *)
Module Mock.

Definition ids_of_bytes (b : bytes) : list TokenId :=
  map (fun x => Z.of_N (Byte.to_N x)) b.

Definition ids_of_str (s : str) : list TokenId := map Z.of_N s.

Definition type_error : exception :=
  Exception "TypeError" "unsupported argument type".

(** One token per byte; refuses [str]. *)
Definition byte_level : Tokenizer nat :=
  {| tk_call := fun x n =>
       match x with
       | PyBytes b => (Return (ids_of_bytes b), S n)
       | PyStr _ => (Raise type_error, S n)
       end;
     tk_eos_token_id := 256%Z;
     tk_bos_token_id := None;
     tk_tokens := [[x00]; [x01]; [x02]] |}.

(** One token per code point; refuses [bytes]. *)
Definition char_level : Tokenizer nat :=
  {| tk_call := fun x n =>
       match x with
       | PyBytes _ => (Raise type_error, S n)
       | PyStr s => (Return (ids_of_str s), S n)
       end;
     tk_eos_token_id := 0%Z;
     tk_bos_token_id := Some 1%Z;
     tk_tokens := [[x00]; [x01]; [x02]] |}.

(** As [char_level], but the sentinel and the code point [c] after it become
    the single token [1000 + c]. *)
Definition merging : Tokenizer nat :=
  {| tk_call := fun x n =>
       match x with
       | PyBytes _ => (Raise type_error, S n)
       | PyStr (0x02 :: c :: s) =>
           (Return ((1000 + Z.of_N c)%Z :: ids_of_str s), S n)
       | PyStr s => (Return (ids_of_str s), S n)
       end;
     tk_eos_token_id := 0%Z;
     tk_bos_token_id := None;
     tk_tokens := [] |}.

(** As [char_level], but a text of one character gets no token. *)
Definition dropping : Tokenizer nat :=
  {| tk_call := fun x n =>
       match x with
       | PyBytes _ => (Raise type_error, S n)
       | PyStr [_] => (Return [], S n)
       | PyStr s => (Return (ids_of_str s), S n)
       end;
     tk_eos_token_id := 0%Z;
     tk_bos_token_id := None;
     tk_tokens := [] |}.

(** The sentinel alone is two tokens; any longer text is one token. *)
Definition shrinking : Tokenizer nat :=
  {| tk_call := fun x n =>
       match x with
       | PyBytes _ => (Raise type_error, S n)
       | PyStr [c] => (Return [Z.of_N c; 0%Z], S n)
       | PyStr _ => (Return [7%Z], S n)
       end;
     tk_eos_token_id := 0%Z;
     tk_bos_token_id := None;
     tk_tokens := [] |}.

(** As [char_level], but raises on a code point above [0x7F]. *)
Definition ascii_only : Tokenizer nat :=
  {| tk_call := fun x n =>
       match x with
       | PyBytes _ => (Raise type_error, S n)
       | PyStr s =>
           if forallb (fun c => c <? 0x80) s
           then (Return (ids_of_str s), S n)
           else (Raise (Exception "ValueError" "not ASCII"), S n)
       end;
     tk_eos_token_id := 0%Z;
     tk_bos_token_id := None;
     tk_tokens := [] |}.

(** As [char_level], followed by a token that numbers the call: not a fixed
    function. *)
Definition numbering : Tokenizer nat :=
  {| tk_call := fun x n =>
       match x with
       | PyBytes _ => (Raise type_error, S n)
       | PyStr s => (Return (ids_of_str s ++ [Z.of_nat n]), S n)
       end;
     tk_eos_token_id := 0%Z;
     tk_bos_token_id := None;
     tk_tokens := [] |}.

End Mock.

(** ** A tokenizer that records its calls *)

(** The tokenizer [g] with a log: it answers as [g] does and appends each
    argument it is called with to the list kept beside the state of [g]. *)
Definition logged {St : Type} (g : Tokenizer St)
    : Tokenizer (St * list pyarg) :=
  {| tk_call := fun x sl =>
       let (r, st') := tk_call g x (fst sl) in
       (r, (st', snd sl ++ [x]));
     tk_eos_token_id := tk_eos_token_id g;
     tk_bos_token_id := tk_bos_token_id g;
     tk_tokens := tk_tokens g |}.

(** ** Code points *)

(** A surrogate code point: the ones [str.encode("utf-8")] refuses. *)
Definition is_surrogate (c : N) : bool := (0xD800 <=? c) && (c <? 0xE000).

(** A text without surrogates. *)
Definition no_surrogate (s : str) : bool :=
  forallb (fun c => negb (is_surrogate c)) s.

(** * Properties *)

(** ** Lists *)

Lemma list_eq_true_iff (l1 l2 : list TokenId) :
  list_eq l1 l2 = true <-> l1 = l2.
Proof.
  revert l2.
  induction l1 as [|x l1 IH]; intros [|y l2]; simpl; split;
    try congruence; try discriminate.
  - intros H. apply andb_true_iff in H as [Hxy Hl].
    apply Z.eqb_eq in Hxy. apply IH in Hl. congruence.
  - intros H. injection H as -> ->.
    rewrite Z.eqb_refl. simpl. apply IH. reflexivity.
Qed.

Lemma list_eq_refl (l : list TokenId) : list_eq l l = true.
Proof. apply list_eq_true_iff. reflexivity. Qed.

Lemma list_eq_false_iff (l1 l2 : list TokenId) :
  list_eq l1 l2 = false <-> l1 <> l2.
Proof.
  rewrite <- list_eq_true_iff.
  destruct (list_eq l1 l2); split; congruence.
Qed.

Lemma slice_to_app (p r : list TokenId) :
  slice_to (List.length p) (p ++ r) = p.
Proof.
  unfold slice_to. rewrite firstn_app, Nat.sub_diag, firstn_all.
  simpl. apply app_nil_r.
Qed.

Lemma slice_from_app (p r : list TokenId) :
  slice_from (List.length p) (p ++ r) = r.
Proof.
  unfold slice_from. rewrite skipn_app, Nat.sub_diag, skipn_all.
  reflexivity.
Qed.

Lemma slice_to_from (n : nat) (l : list TokenId) :
  slice_to n l ++ slice_from n l = l.
Proof. apply firstn_skipn. Qed.

Lemma slice_to_short (n : nat) (l : list TokenId) :
  (List.length l < n)%nat -> List.length (slice_to n l) = List.length l.
Proof.
  intros H. unfold slice_to. rewrite firstn_all2 by lia. reflexivity.
Qed.

(** ** The frame of the methods: what leaves the attributes alone *)

Section Frame.

Variable St : Type.

Lemma keeps_self_ret {A : Type} (a : A) : keeps_self (St := St) (ret a).
Proof. intros w. reflexivity. Qed.

Lemma keeps_self_raise {A : Type} (e : exception) :
  keeps_self (St := St) (A := A) (raise e).
Proof. intros w. reflexivity. Qed.

Lemma keeps_self_eval {A : Type} (r : outcome A) :
  keeps_self (St := St) (eval r).
Proof. intros w. reflexivity. Qed.

Lemma keeps_self_py_assert (c : bool) : keeps_self (St := St) (py_assert c).
Proof. intros w. destruct c; reflexivity. Qed.

Lemma keeps_self_getattr {A : Type}
    (field : TokenizerWrapper St -> option A) (name : string) :
  keeps_self (getattr field name).
Proof. intros w. unfold getattr. destruct (field (self w)); reflexivity. Qed.

Lemma keeps_self_call (g : Tokenizer St) (x : pyarg) : keeps_self (call g x).
Proof.
  intros w. unfold call. destruct (tk_call g x (tok_state w)). reflexivity.
Qed.

Lemma keeps_self_bind {A B : Type} (m : M St A) (k : A -> M St B) :
  keeps_self m -> (forall a, keeps_self (k a)) -> keeps_self (bind m k).
Proof.
  intros Hm Hk w. unfold bind.
  specialize (Hm w). destruct (m w) as [[a|e] w']; simpl in *.
  - rewrite Hk. exact Hm.
  - exact Hm.
Qed.

Lemma keeps_self_if {A : Type} (c : bool) (m1 m2 : M St A) :
  keeps_self m1 -> keeps_self m2 -> keeps_self (if c then m1 else m2).
Proof. destruct c; auto. Qed.

End Frame.

Create HintDb frame.
#[export] Hint Resolve keeps_self_ret keeps_self_raise keeps_self_eval
  keeps_self_py_assert keeps_self_getattr keeps_self_call keeps_self_bind
  keeps_self_if : frame.

(** Goes through a computation built from [bind]: each step is closed by a
    hint of the database or left to the caller. *)
Ltac frame :=
  repeat first
    [ apply keeps_self_bind; [ | intros ?; cbv beta ]
    | apply keeps_self_if
    | solve [ auto with frame ] ].

Section Properties.

Variable St : Type.

Implicit Types (g : Tokenizer St) (a : TokenizerWrapper St) (st : St).
Implicit Types (w : World St) (s t : str) (pt : list TokenId).

Lemma keeps_self_encode_string s : keeps_self (St := St) (_encode_string s).
Proof. unfold _encode_string. frame. Qed.

Lemma keeps_self_call_op t : keeps_self (St := St) (__call__ t).
Proof.
  unfold __call__. frame.
Qed.

Lemma encode_all_self (ts : list str) w : self (encode_all ts w) = self w.
Proof.
  revert w. induction ts as [|t ts IH]; intros w; simpl.
  - reflexivity.
  - rewrite IH. apply keeps_self_call_op.
Qed.

(** ** What the methods compute on an initialised instance *)

Lemma call_eq g x st a :
  call g x (Build_World st a) =
    (fst (tk_call g x st), Build_World (snd (tk_call g x st)) a).
Proof. unfold call. simpl. destruct (tk_call g x st). reflexivity. Qed.

Lemma encode_string_initialised g ab pt st s :
  _encode_string s (Build_World st (initialised g ab pt)) =
    if ab then
      match str_encode_utf8 s with
      | Return b => call g (PyBytes b) (Build_World st (initialised g ab pt))
      | Raise e => (Raise e, Build_World st (initialised g ab pt))
      end
    else call g (PyStr s) (Build_World st (initialised g ab pt)).
Proof.
  destruct ab; unfold _encode_string, bind, getattr, eval; simpl.
  - destruct (str_encode_utf8 s); reflexivity.
  - reflexivity.
Qed.

Lemma call_op_initialised g ab pt st t :
  __call__ t (Build_World st (initialised g ab pt)) =
    match _encode_string ([0x02] ++ t) (Build_World st (initialised g ab pt)) with
    | (Return toks, w') =>
        if list_eq (slice_to (List.length pt) toks) pt
        then (Return (slice_from (List.length pt) toks), w')
        else (Raise (AssertionError None), w')
    | (Raise e, w') => (Raise e, w')
    end.
Proof.
  pose proof (keeps_self_encode_string ([0x02] ++ t)
                (Build_World st (initialised g ab pt))) as Hself.
  unfold __call__, bind, getattr. simpl self at 1. simpl prefix_string.
  cbv iota beta.
  destruct (_encode_string ([0x02] ++ t) _) as [[toks|e] w']; simpl in Hself.
  - do 2 (rewrite Hself; cbn [prefix_tokens initialised]).
    unfold py_assert, ret, raise.
    destruct (list_eq (slice_to (List.length pt) toks) pt).
    + rewrite Hself. reflexivity.
    + reflexivity.
  - reflexivity.
Qed.

(** ** What the constructor computes *)

Lemma init_eq g st a0 :
  __init__ g (Build_World st a0) =
    let probe := tk_call g (PyBytes b_test) st in
    let ab := is_return (fst probe) in
    let calib := tk_call g (sentinel_arg ab) (snd probe) in
    match fst calib with
    | Return pt => (Return tt, Build_World (snd calib) (initialised g ab pt))
    | Raise e =>
        (Raise e,
         Build_World (snd calib)
           (set_prefix_string [0x02]
              (set_accepts_bytes ab
                 (set_tokens (tk_tokens g)
                    (set_bos_token_id (tk_bos_token_id g)
                       (set_eos_token_id (tk_eos_token_id g)
                          (set_gtokenizer g a0)))))))
    end.
Proof.
  unfold __init__, _encode_string.
  unfold bind, try_except, setattr, getattr, call, eval, ret.
  simpl.
  destruct (tk_call g (PyBytes b_test) st) as [[r|e] st1]; simpl.
  - change (byte_of_N 2) with x02.
    destruct (tk_call g (PyBytes [x02]) st1) as [[pt|e] st2]; reflexivity.
  - destruct (tk_call g (PyStr [0x02]) st1) as [[pt|e'] st2]; reflexivity.
Qed.

Lemma TokenizerWrapper_new_eq g st :
  TokenizerWrapper_new g st =
    let probe := tk_call g (PyBytes b_test) st in
    let ab := is_return (fst probe) in
    let calib := tk_call g (sentinel_arg ab) (snd probe) in
    match fst calib with
    | Return pt => (Return (initialised g ab pt), snd calib)
    | Raise e => (Raise e, snd calib)
    end.
Proof.
  unfold TokenizerWrapper_new. rewrite init_eq. cbv zeta.
  destruct (fst (tk_call g _ _)); reflexivity.
Qed.

Lemma constructed_initialised g a :
  constructed g a -> exists ab pt, a = initialised g ab pt.
Proof.
  intros (st & st' & H). rewrite TokenizerWrapper_new_eq in H. cbv zeta in H.
  destruct (fst (tk_call g (sentinel_arg _) _)) as [pt|e]; [|discriminate].
  injection H as <- _. eauto.
Qed.

Lemma encode_string_arg g ab pt st s :
  _encode_string s (Build_World st (initialised g ab pt)) =
    match tokenizer_arg ab s with
    | Return x => call g x (Build_World st (initialised g ab pt))
    | Raise e => (Raise e, Build_World st (initialised g ab pt))
    end.
Proof.
  rewrite encode_string_initialised. unfold tokenizer_arg.
  destruct ab; [destruct (str_encode_utf8 s)|]; reflexivity.
Qed.

Lemma call_op_arg g ab pt st t :
  __call__ t (Build_World st (initialised g ab pt)) =
    match tokenizer_arg ab ([0x02] ++ t) with
    | Return x =>
        let r := tk_call g x st in
        let w' := Build_World (snd r) (initialised g ab pt) in
        match fst r with
        | Return toks =>
            if list_eq (slice_to (List.length pt) toks) pt
            then (Return (slice_from (List.length pt) toks), w')
            else (Raise (AssertionError None), w')
        | Raise e => (Raise e, w')
        end
    | Raise e => (Raise e, Build_World st (initialised g ab pt))
    end.
Proof.
  rewrite call_op_initialised, encode_string_arg.
  destruct (tokenizer_arg ab _) as [x|e]; [|reflexivity].
  rewrite call_eq. cbv zeta.
  destruct (fst (tk_call g x st)); reflexivity.
Qed.

Lemma encode_string_outcome_fixed g ab pt s st st1 :
  fixed_function g ->
  fst (_encode_string s (Build_World st (initialised g ab pt))) =
  fst (_encode_string s (Build_World st1 (initialised g ab pt))).
Proof.
  intros Hg. rewrite !encode_string_arg.
  destruct (tokenizer_arg ab s) as [x|e]; [|reflexivity].
  rewrite !call_eq. simpl. apply Hg.
Qed.

Lemma call_op_outcome g ab pt st t :
  fst (__call__ t (Build_World st (initialised g ab pt))) =
    match fst (_encode_string ([0x02] ++ t)
                 (Build_World st (initialised g ab pt))) with
    | Return toks =>
        if list_eq (slice_to (List.length pt) toks) pt
        then Return (slice_from (List.length pt) toks)
        else Raise (AssertionError None)
    | Raise e => Raise e
    end.
Proof.
  rewrite call_op_initialised.
  destruct (_encode_string _ _) as [[toks|e] w']; simpl; [|reflexivity].
  destruct (list_eq _ pt); reflexivity.
Qed.

Lemma call_op_world g ab pt st t :
  snd (__call__ t (Build_World st (initialised g ab pt))) =
    Build_World
      (tok_state (snd (__call__ t (Build_World st (initialised g ab pt)))))
      (initialised g ab pt).
Proof.
  pose proof (keeps_self_call_op t (Build_World st (initialised g ab pt))) as H.
  destruct (snd (__call__ t _)) as [st1 a1]. simpl in *. congruence.
Qed.

(** ** The call operator: stripping the sentinel's tokens

    In the statements [x] is the argument the wrapper computes for the
    tokenizer from the sentinel followed by the text [t], [st] the state the
    tokenizer is in when the call is made and [st'] the state it is left in. *)

(** C1.  For every text [t]: if the wrapped tokenizer encodes the sentinel
    followed by [t] to [prefix_tokens] followed by some [rest], then the call
    [__call__ t] returns exactly [rest]. *)
Theorem C1_prefix_stripping g a ab pt st t x rest st' :
  constructed g a ->
  accepts_bytes a = Some ab ->
  prefix_tokens a = Some pt ->
  tokenizer_arg ab ([0x02] ++ t) = Return x ->
  tk_call g x st = (Return (pt ++ rest), st') ->
  __call__ t (Build_World st a) = (Return rest, Build_World st' a).
Proof.
  intros Hc Hab Hpt Harg Henc.
  destruct (constructed_initialised g a Hc) as (ab' & pt' & ->).
  injection Hab as ->. injection Hpt as ->.
  rewrite call_op_arg, Harg, Henc. cbv zeta. cbn [fst snd].
  rewrite slice_to_app, list_eq_refl, slice_from_app. reflexivity.
Qed.

(** C2, as the code has it.  For every text [t]: if the first
    [len(prefix_tokens)] tokens of the wrapped tokenizer's encoding of the
    sentinel followed by [t] are not [prefix_tokens], the call raises
    [AssertionError] and returns no slice; the exception has no message. *)
Theorem C2_mismatch_raises g a ab pt st t x toks st' :
  constructed g a ->
  accepts_bytes a = Some ab ->
  prefix_tokens a = Some pt ->
  tokenizer_arg ab ([0x02] ++ t) = Return x ->
  tk_call g x st = (Return toks, st') ->
  slice_to (List.length pt) toks <> pt ->
  __call__ t (Build_World st a) =
    (Raise (AssertionError None), Build_World st' a).
Proof.
  intros Hc Hab Hpt Harg Henc Hne.
  destruct (constructed_initialised g a Hc) as (ab' & pt' & ->).
  injection Hab as ->. injection Hpt as ->.
  rewrite call_op_arg, Harg, Henc. cbv zeta. cbn [fst snd].
  apply list_eq_false_iff in Hne. rewrite Hne. reflexivity.
Qed.

(** C5.  Whenever the call returns [r], the wrapped tokenizer was called on
    the sentinel followed by [t] and returned exactly [prefix_tokens] followed
    by [r]; and when the tokenizer returns fewer tokens than [prefix_tokens]
    has, the call raises. *)
Theorem C5_result_sound g a ab pt st t :
  constructed g a ->
  accepts_bytes a = Some ab ->
  prefix_tokens a = Some pt ->
  (forall r w',
      __call__ t (Build_World st a) = (Return r, w') ->
      exists x,
        tokenizer_arg ab ([0x02] ++ t) = Return x /\
        tk_call g x st = (Return (pt ++ r), tok_state w'))
  /\
  (forall x toks st',
      tokenizer_arg ab ([0x02] ++ t) = Return x ->
      tk_call g x st = (Return toks, st') ->
      (List.length toks < List.length pt)%nat ->
      __call__ t (Build_World st a) =
        (Raise (AssertionError None), Build_World st' a)).
Proof.
  intros Hc Hab Hpt.
  destruct (constructed_initialised g a Hc) as (ab' & pt' & ->).
  injection Hab as ->. injection Hpt as ->.
  split.
  - intros r w' Hcall. rewrite call_op_arg in Hcall.
    destruct (tokenizer_arg ab _) as [x|e]; [|discriminate].
    exists x. split; [reflexivity|].
    cbv zeta in Hcall.
    destruct (tk_call g x st) as [[toks|e] st1]; simpl in Hcall;
      [|discriminate].
    destruct (list_eq (slice_to (List.length pt) toks) pt) eqn:Heq;
      [|discriminate].
    injection Hcall as <- <-. simpl.
    apply list_eq_true_iff in Heq.
    rewrite <- Heq at 1. rewrite slice_to_from. reflexivity.
  - intros x toks st' Harg Henc Hlen.
    rewrite call_op_arg, Harg, Henc. cbv zeta. cbn [fst snd].
    assert (Hne : slice_to (List.length pt) toks <> pt).
    { intros Heq. apply (f_equal (@List.length _)) in Heq.
      rewrite slice_to_short in Heq by exact Hlen. lia. }
    apply list_eq_false_iff in Hne. rewrite Hne. reflexivity.
Qed.

(** C6.  For every text [t]: an exception the wrapped tokenizer raises when
    called on the sentinel followed by [t] is the exception the call raises. *)
Theorem C6_tokenizer_error_propagates g a ab st t x e st' :
  constructed g a ->
  accepts_bytes a = Some ab ->
  tokenizer_arg ab ([0x02] ++ t) = Return x ->
  tk_call g x st = (Raise e, st') ->
  __call__ t (Build_World st a) = (Raise e, Build_World st' a).
Proof.
  intros Hc Hab Harg Hcall.
  destruct (constructed_initialised g a Hc) as (ab' & pt & ->).
  injection Hab as ->.
  rewrite call_op_arg, Harg, Hcall. reflexivity.
Qed.

(** C7.  If the wrapped tokenizer encodes the sentinel followed by the empty
    text to exactly [prefix_tokens], the call on the empty text returns the
    empty list. *)
Theorem C7_empty_text g a ab pt st x st' :
  constructed g a ->
  accepts_bytes a = Some ab ->
  prefix_tokens a = Some pt ->
  tokenizer_arg ab ([0x02] ++ []) = Return x ->
  tk_call g x st = (Return pt, st') ->
  __call__ [] (Build_World st a) = (Return [], Build_World st' a).
Proof.
  intros Hc Hab Hpt Harg Henc.
  destruct (constructed_initialised g a Hc) as (ab' & pt' & ->).
  injection Hab as ->. injection Hpt as ->.
  rewrite call_op_arg, Harg, Henc. cbv zeta. cbn [fst snd].
  unfold slice_to, slice_from.
  rewrite firstn_all, skipn_all, list_eq_refl. reflexivity.
Qed.

(** ** The constructor: the probe and the calling convention *)

(** C3.  [__init__] leaves [accepts_bytes] at [True] when the probe call
    [gtokenizer(b"test")] returns and sets it to [False] when the probe call
    raises, whatever it raises; and [__init__] returns or raises as the later
    call that encodes the sentinel does, so that an exception of the probe
    never leaves the constructor. *)
Theorem C3_probe_swallowed g st :
  let probe := tk_call g (PyBytes b_test) st in
  let ab := is_return (fst probe) in
  let calib := tk_call g (sentinel_arg ab) (snd probe) in
  let done := __init__ g (Build_World st fresh_instance) in
  accepts_bytes (self (snd done)) = Some ab /\
  fst done = match fst calib with
             | Return _ => Return tt
             | Raise e => Raise e
             end.
Proof.
  cbv zeta. rewrite init_eq. cbv zeta.
  destruct (fst (tk_call g (sentinel_arg _) _)); split; reflexivity.
Qed.

(** C4.  When the wrapped tokenizer takes [bytes], construction completes
    with [accepts_bytes] true.  When it raises on [bytes] and takes [str],
    construction completes with [accepts_bytes] false, and every later call
    hands the tokenizer the [str] made of the sentinel and the text, as it is,
    then checks and strips the sentinel's tokens. *)
Theorem C4_convention g st :
  (takes_bytes g ->
   exists a st',
     TokenizerWrapper_new g st = (Return a, st') /\
     accepts_bytes a = Some true)
  /\
  (refuses_bytes g -> takes_str g ->
   exists a pt st',
     TokenizerWrapper_new g st = (Return a, st') /\
     accepts_bytes a = Some false /\
     prefix_tokens a = Some pt /\
     forall st1 t,
       __call__ t (Build_World st1 a) =
         (tokens <- call g (PyStr ([0x02] ++ t)) ;;
          py_assert (list_eq (slice_to (List.length pt) tokens) pt) ;;;
          ret (slice_from (List.length pt) tokens)) (Build_World st1 a)).
Proof.
  split.
  - intros Hb. rewrite TokenizerWrapper_new_eq. cbv zeta.
    rewrite (Hb b_test st). simpl sentinel_arg.
    specialize (Hb [x02] (snd (tk_call g (PyBytes b_test) st))).
    destruct (tk_call g (PyBytes [x02]) _) as [[pt|e] st']; simpl in *;
      [|discriminate].
    exists (initialised g true pt), st'. split; reflexivity.
  - intros Hb Hs. rewrite TokenizerWrapper_new_eq. cbv zeta.
    rewrite (Hb b_test st). simpl sentinel_arg.
    specialize (Hs [0x02] (snd (tk_call g (PyBytes b_test) st))).
    destruct (tk_call g (PyStr [0x02]) _) as [[pt|e] st']; simpl in *;
      [|discriminate].
    exists (initialised g false pt), pt, st'.
    repeat split.
    intros st1 t. rewrite call_op_initialised, encode_string_initialised.
    unfold bind, py_assert, ret, raise.
    destruct (call g _ _) as [[toks|e] w']; [|reflexivity].
    destruct (list_eq _ pt); reflexivity.
Qed.

(** C8.  When the wrapped tokenizer encodes the sentinel alone to the empty
    list during construction, [prefix_tokens] is empty, and for every text
    [t] the call returns, or raises, what the wrapped tokenizer does on the
    sentinel followed by [t]: all its tokens, the sentinel's among them. *)
Theorem C8_empty_prefix g st st' :
  let probe := tk_call g (PyBytes b_test) st in
  let ab := is_return (fst probe) in
  tk_call g (sentinel_arg ab) (snd probe) = (Return [], st') ->
  exists a,
    TokenizerWrapper_new g st = (Return a, st') /\
    accepts_bytes a = Some ab /\
    prefix_tokens a = Some [] /\
    forall st1 t,
      __call__ t (Build_World st1 a) =
        match tokenizer_arg ab ([0x02] ++ t) with
        | Return x => call g x (Build_World st1 a)
        | Raise e => (Raise e, Build_World st1 a)
        end.
Proof.
  cbv zeta. intros Hcal.
  exists (initialised g (is_return (fst (tk_call g (PyBytes b_test) st))) []).
  split; [|split; [|split]].
  - rewrite TokenizerWrapper_new_eq. cbv zeta. rewrite Hcal. reflexivity.
  - reflexivity.
  - reflexivity.
  - intros st1 t. rewrite call_op_arg.
    destruct (tokenizer_arg _ _) as [x|e]; [|reflexivity].
    rewrite call_eq. cbv zeta.
    destruct (fst (tk_call g x st1)); reflexivity.
Qed.

(** ** No hidden state *)

(** C9.  After any sequence of calls on a constructed wrapper, each attribute
    ([eos_token_id], [bos_token_id], [tokens], [accepts_bytes],
    [prefix_string], [prefix_tokens], and [gtokenizer]) has the value the
    constructor gave it, whether the calls returned or raised; the first
    three are those of the wrapped tokenizer and the sentinel is ["\x02"]. *)
Theorem C9_attributes_unchanged g a st (ts : list str) :
  constructed g a ->
  let a' := self (encode_all ts (Build_World st a)) in
  a' = a /\
  eos_token_id a' = Some (tk_eos_token_id g) /\
  bos_token_id a' = Some (tk_bos_token_id g) /\
  tokens a' = Some (tk_tokens g) /\
  prefix_string a' = Some [0x02].
Proof.
  intros Hc. cbv zeta. rewrite encode_all_self. simpl self.
  destruct (constructed_initialised g a Hc) as (ab & pt & ->).
  repeat split.
Qed.

(** C10.  When the wrapped tokenizer behaves as a fixed function, two
    successive calls with the same text on the same wrapper have the same
    outcome: the same token list. *)
Theorem C10_deterministic g a st t :
  constructed g a ->
  fixed_function g ->
  let first := __call__ t (Build_World st a) in
  let second := __call__ t (snd first) in
  fst second = fst first.
Proof.
  intros Hc Hg. cbv zeta.
  destruct (constructed_initialised g a Hc) as (ab & pt & ->).
  rewrite call_op_world, !call_op_outcome.
  rewrite (encode_string_outcome_fixed g ab pt _ _ st Hg). reflexivity.
Qed.

End Properties.

(** ** The properties on concrete tokenizers *)

Lemma byte_level_constructed :
  constructed Mock.byte_level (initialised Mock.byte_level true [2%Z]).
Proof. exists 0%nat, 2%nat. reflexivity. Qed.

Lemma char_level_constructed :
  constructed Mock.char_level (initialised Mock.char_level false [2%Z]).
Proof. exists 0%nat, 2%nat. reflexivity. Qed.

Lemma merging_constructed :
  constructed Mock.merging (initialised Mock.merging false [2%Z]).
Proof. exists 0%nat, 2%nat. reflexivity. Qed.

Lemma shrinking_constructed :
  constructed Mock.shrinking (initialised Mock.shrinking false [2%Z; 0%Z]).
Proof. exists 0%nat, 2%nat. reflexivity. Qed.

Lemma ascii_only_constructed :
  constructed Mock.ascii_only (initialised Mock.ascii_only false [2%Z]).
Proof. exists 0%nat, 2%nat. reflexivity. Qed.

Lemma numbering_constructed :
  constructed Mock.numbering (initialised Mock.numbering false [2%Z; 1%Z]).
Proof. exists 0%nat, 2%nat. reflexivity. Qed.

(** The text "hi" through the byte-level tokenizer. *)
Lemma C1_prefix_stripping_witness :
  let a := initialised Mock.byte_level true [2%Z] in
  constructed Mock.byte_level a /\
  accepts_bytes a = Some true /\
  prefix_tokens a = Some [2%Z] /\
  tokenizer_arg true ([0x02] ++ [0x68; 0x69]) = Return (PyBytes [x02; x68; x69]) /\
  tk_call Mock.byte_level (PyBytes [x02; x68; x69]) 2%nat =
    (Return ([2%Z] ++ [104%Z; 105%Z]), 3%nat) /\
  __call__ [0x68; 0x69] (Build_World 2%nat a) =
    (Return [104%Z; 105%Z], Build_World 3%nat a).
Proof.
  cbv zeta.
  split; [exact byte_level_constructed|].
  do 4 (split; [reflexivity|]).
  apply (C1_prefix_stripping nat Mock.byte_level _ true [2%Z] 2%nat
           [0x68; 0x69] (PyBytes [x02; x68; x69])).
  - exact byte_level_constructed.
  - reflexivity.
  - reflexivity.
  - reflexivity.
  - reflexivity.
Defined.

(** The text "a" through the merging tokenizer: the sentinel's token is not
    there, and the call raises. *)
Lemma C2_mismatch_raises_witness :
  let a := initialised Mock.merging false [2%Z] in
  constructed Mock.merging a /\
  accepts_bytes a = Some false /\
  prefix_tokens a = Some [2%Z] /\
  tokenizer_arg false ([0x02] ++ [0x61]) = Return (PyStr [0x02; 0x61]) /\
  tk_call Mock.merging (PyStr [0x02; 0x61]) 2%nat = (Return [1097%Z], 3%nat) /\
  slice_to (List.length [2%Z]) [1097%Z] <> [2%Z] /\
  __call__ [0x61] (Build_World 2%nat a) =
    (Raise (AssertionError None), Build_World 3%nat a).
Proof.
  cbv zeta.
  split; [exact merging_constructed|].
  do 4 (split; [reflexivity|]).
  split; [simpl; discriminate|].
  apply (C2_mismatch_raises nat Mock.merging _ false [2%Z] 2%nat [0x61]
           (PyStr [0x02; 0x61]) [1097%Z]).
  - exact merging_constructed.
  - reflexivity.
  - reflexivity.
  - reflexivity.
  - reflexivity.
  - simpl. discriminate.
Defined.

(** C2 as stated fails on the diagnostic.  The merging tokenizer turns the
    texts "a" and "b" into different token lists, neither of which starts
    with the sentinel's token; both calls raise one and the same
    [AssertionError], without a message, so that nothing in the failure tells
    the two mismatches apart or says what they are. *)
Lemma C2_diagnostic_counterexample :
  let a := initialised Mock.merging false [2%Z] in
  let w := Build_World 2%nat a in
  constructed Mock.merging a /\
  accepts_bytes a = Some false /\
  prefix_tokens a = Some [2%Z] /\
  fst (tk_call Mock.merging (PyStr ([0x02] ++ [0x61])) 2%nat) = Return [1097%Z] /\
  fst (tk_call Mock.merging (PyStr ([0x02] ++ [0x62])) 2%nat) = Return [1098%Z] /\
  fst (__call__ [0x61] w) = Raise (AssertionError None) /\
  fst (__call__ [0x62] w) = Raise (AssertionError None) /\
  forall msg, fst (__call__ [0x61] w) <> Raise (AssertionError (Some msg)).
Proof.
  cbv zeta.
  split; [exact merging_constructed|].
  repeat (split; [reflexivity|]).
  intros msg. simpl. discriminate.
Qed.

(** The character-level tokenizer raises on the probe; construction goes on
    and completes with [accepts_bytes] false. *)
Example char_level_probe_swallowed :
  fst (tk_call Mock.char_level (PyBytes b_test) 0%nat) = Raise Mock.type_error /\
  TokenizerWrapper_new Mock.char_level 0%nat =
    (Return (initialised Mock.char_level false [2%Z]), 2%nat).
Proof. split; reflexivity. Qed.

Lemma byte_level_takes_bytes : takes_bytes Mock.byte_level.
Proof. intros b st. reflexivity. Qed.

Lemma char_level_refuses_bytes : refuses_bytes Mock.char_level.
Proof. intros b st. reflexivity. Qed.

Lemma char_level_takes_str : takes_str Mock.char_level.
Proof. intros s st. reflexivity. Qed.

(** The byte-level and the character-level tokenizers. *)
Lemma C4_convention_witness :
  (takes_bytes Mock.byte_level /\
   exists a st',
     TokenizerWrapper_new Mock.byte_level 0%nat = (Return a, st') /\
     accepts_bytes a = Some true)
  /\
  (refuses_bytes Mock.char_level /\ takes_str Mock.char_level /\
   exists a pt st',
     TokenizerWrapper_new Mock.char_level 0%nat = (Return a, st') /\
     accepts_bytes a = Some false /\
     prefix_tokens a = Some pt /\
     forall st1 t,
       __call__ t (Build_World st1 a) =
         (tokens <- call Mock.char_level (PyStr ([0x02] ++ t)) ;;
          py_assert (list_eq (slice_to (List.length pt) tokens) pt) ;;;
          ret (slice_from (List.length pt) tokens)) (Build_World st1 a)).
Proof.
  split.
  - split; [exact byte_level_takes_bytes|].
    apply (proj1 (C4_convention nat Mock.byte_level 0%nat)).
    exact byte_level_takes_bytes.
  - split; [exact char_level_refuses_bytes|].
    split; [exact char_level_takes_str|].
    apply (proj2 (C4_convention nat Mock.char_level 0%nat)).
    + exact char_level_refuses_bytes.
    + exact char_level_takes_str.
Defined.

(** The shrinking tokenizer: the empty text is encoded to the two tokens of
    the sentinel and the call returns; the text "a" is encoded to one token,
    fewer than the sentinel's, and the call raises. *)
Lemma C5_result_sound_witness :
  let a := initialised Mock.shrinking false [2%Z; 0%Z] in
  let w := Build_World 2%nat a in
  let w' := Build_World 3%nat a in
  constructed Mock.shrinking a /\
  accepts_bytes a = Some false /\
  prefix_tokens a = Some [2%Z; 0%Z] /\
  (__call__ [] w = (Return [], w') /\
   exists x,
     tokenizer_arg false ([0x02] ++ []) = Return x /\
     tk_call Mock.shrinking x 2%nat = (Return ([2%Z; 0%Z] ++ []), 3%nat)) /\
  (tokenizer_arg false ([0x02] ++ [0x61]) = Return (PyStr [0x02; 0x61]) /\
   tk_call Mock.shrinking (PyStr [0x02; 0x61]) 2%nat = (Return [7%Z], 3%nat) /\
   (List.length [7%Z] < List.length [2%Z; 0%Z])%nat /\
   __call__ [0x61] w = (Raise (AssertionError None), w')).
Proof.
  cbv zeta.
  split; [exact shrinking_constructed|].
  do 2 (split; [reflexivity|]).
  split.
  - split; [reflexivity|].
    apply (proj1 (C5_result_sound nat Mock.shrinking _ false [2%Z; 0%Z] 2%nat
                    [] shrinking_constructed eq_refl eq_refl) []
             (Build_World 3%nat (initialised Mock.shrinking false [2%Z; 0%Z]))).
    reflexivity.
  - do 2 (split; [reflexivity|]).
    split; [simpl; lia|].
    apply (proj2 (C5_result_sound nat Mock.shrinking _ false [2%Z; 0%Z] 2%nat
                    [0x61] shrinking_constructed eq_refl eq_refl)
             (PyStr [0x02; 0x61]) [7%Z]).
    + reflexivity.
    + reflexivity.
    + simpl. lia.
Defined.

(** The text "é" through the tokenizer that takes ASCII only. *)
Lemma C6_tokenizer_error_propagates_witness :
  let a := initialised Mock.ascii_only false [2%Z] in
  let e := Exception "ValueError" "not ASCII" in
  constructed Mock.ascii_only a /\
  accepts_bytes a = Some false /\
  tokenizer_arg false ([0x02] ++ [0xE9]) = Return (PyStr [0x02; 0xE9]) /\
  tk_call Mock.ascii_only (PyStr [0x02; 0xE9]) 2%nat = (Raise e, 3%nat) /\
  __call__ [0xE9] (Build_World 2%nat a) = (Raise e, Build_World 3%nat a).
Proof.
  cbv zeta.
  split; [exact ascii_only_constructed|].
  split; [reflexivity|].
  split; [reflexivity|].
  split; [reflexivity|].
  apply (C6_tokenizer_error_propagates nat Mock.ascii_only _ false 2%nat
           [0xE9] (PyStr [0x02; 0xE9])).
  - exact ascii_only_constructed.
  - reflexivity.
  - reflexivity.
  - reflexivity.
Defined.

(** A text with a lone surrogate, through a wrapper that converts to bytes:
    the conversion raises and the tokenizer is not called. *)
Example surrogate_not_encoded :
  __call__ [0x61; 0xD800]
    (Build_World 2%nat (initialised Mock.byte_level true [2%Z])) =
  (Raise (UnicodeEncodeError 2),
   Build_World 2%nat (initialised Mock.byte_level true [2%Z])).
Proof. reflexivity. Qed.

(** The empty text through the character-level tokenizer. *)
Lemma C7_empty_text_witness :
  let a := initialised Mock.char_level false [2%Z] in
  constructed Mock.char_level a /\
  accepts_bytes a = Some false /\
  prefix_tokens a = Some [2%Z] /\
  tokenizer_arg false ([0x02] ++ []) = Return (PyStr [0x02]) /\
  tk_call Mock.char_level (PyStr [0x02]) 2%nat = (Return [2%Z], 3%nat) /\
  __call__ [] (Build_World 2%nat a) = (Return [], Build_World 3%nat a).
Proof.
  cbv zeta.
  split; [exact char_level_constructed|].
  do 4 (split; [reflexivity|]).
  apply (C7_empty_text nat Mock.char_level _ false [2%Z] 2%nat (PyStr [0x02])).
  - exact char_level_constructed.
  - reflexivity.
  - reflexivity.
  - reflexivity.
  - reflexivity.
Defined.

(** The tokenizer that gives no token to a text of one character: the
    sentinel alone has no token, and the call on "a" returns the token of the
    sentinel before that of the letter. *)
Lemma C8_empty_prefix_witness :
  tk_call Mock.dropping
    (sentinel_arg (is_return (fst (tk_call Mock.dropping (PyBytes b_test) 0%nat))))
    (snd (tk_call Mock.dropping (PyBytes b_test) 0%nat)) = (Return [], 2%nat) /\
  exists a,
    TokenizerWrapper_new Mock.dropping 0%nat = (Return a, 2%nat) /\
    prefix_tokens a = Some [] /\
    __call__ [0x61] (Build_World 2%nat a) =
      (Return [2%Z; 97%Z], Build_World 3%nat a).
Proof.
  split; [reflexivity|].
  destruct (C8_empty_prefix nat Mock.dropping 0%nat 2%nat eq_refl)
    as (a & Hnew & Hab & Hpt & Hcall).
  exists a. repeat split; try assumption.
  rewrite Hcall. injection Hnew as <-. reflexivity.
Defined.

(** Three calls on the byte-level wrapper: one returns, one raises in the
    conversion to bytes, one returns the empty list. *)
Lemma C9_attributes_unchanged_witness :
  let a := initialised Mock.byte_level true [2%Z] in
  let a' := self (encode_all [[0x68; 0x69]; [0xD800]; []] (Build_World 2%nat a)) in
  constructed Mock.byte_level a /\
  a' = a /\
  eos_token_id a' = Some 256%Z /\
  bos_token_id a' = Some None /\
  tokens a' = Some [[x00]; [x01]; [x02]] /\
  prefix_string a' = Some [0x02].
Proof.
  cbv zeta.
  split; [exact byte_level_constructed|].
  apply (C9_attributes_unchanged nat Mock.byte_level _ 2%nat
           [[0x68; 0x69]; [0xD800]; []]).
  exact byte_level_constructed.
Defined.

Lemma char_level_fixed_function : fixed_function Mock.char_level.
Proof. intros [b|s] st st'; reflexivity. Qed.

(** The text "hi" twice through the character-level tokenizer. *)
Lemma C10_deterministic_witness :
  let a := initialised Mock.char_level false [2%Z] in
  let first := __call__ [0x68; 0x69] (Build_World 2%nat a) in
  let second := __call__ [0x68; 0x69] (snd first) in
  constructed Mock.char_level a /\
  fixed_function Mock.char_level /\
  fst first = Return [104%Z; 105%Z] /\
  fst second = fst first.
Proof.
  cbv zeta.
  split; [exact char_level_constructed|].
  split; [exact char_level_fixed_function|].
  split; [reflexivity|].
  apply (C10_deterministic nat Mock.char_level _ 2%nat [0x68; 0x69]).
  - exact char_level_constructed.
  - exact char_level_fixed_function.
Defined.

(** Without the assumption of a fixed function the two outcomes may differ:
    the numbering tokenizer answers the second call with another token, and
    the same text is first encoded, then refused. *)
Example numbering_not_deterministic :
  let a := initialised Mock.numbering false [2%Z; 1%Z] in
  let first := __call__ [] (Build_World 1%nat a) in
  let second := __call__ [] (snd first) in
  fst first = Return [] /\
  fst second = Raise (AssertionError None).
Proof. split; reflexivity. Qed.

(** * Further properties *)

(** ** [str.encode("utf-8")]: when it raises, and what it never emits *)

Lemma utf8_encode_char_None (c : N) :
  utf8_encode_char c = None <-> is_surrogate c = true.
Proof.
  unfold utf8_encode_char, is_surrogate.
  destruct (N.ltb_spec c 0x80), (N.ltb_spec c 0x800),
    (N.leb_spec 0xD800 c), (N.ltb_spec c 0xE000), (N.ltb_spec c 0x10000);
    simpl; split; intros; try discriminate; try reflexivity; lia.
Qed.

Lemma utf8_encode_char_Some (c : N) :
  is_surrogate c = false -> exists bs, utf8_encode_char c = Some bs.
Proof.
  intros H. destruct (utf8_encode_char c) as [bs|] eqn:E; [eauto|].
  apply utf8_encode_char_None in E. congruence.
Qed.

Lemma utf8_encode_from_surrogate (pre : str) (c : N) (post : str) (i : nat) :
  no_surrogate pre = true ->
  is_surrogate c = true ->
  utf8_encode_from i (pre ++ c :: post) =
    Raise (UnicodeEncodeError (i + List.length pre)).
Proof.
  revert i. induction pre as [|d pre IH]; intros i Hpre Hc; simpl.
  - apply utf8_encode_char_None in Hc. rewrite Hc, Nat.add_0_r. reflexivity.
  - simpl in Hpre. apply andb_true_iff in Hpre as [Hd Hpre].
    apply negb_true_iff in Hd.
    destruct (utf8_encode_char_Some d Hd) as [bs ->].
    rewrite (IH (S i) Hpre Hc). do 2 f_equal. lia.
Qed.

Lemma utf8_encode_from_Raise (s : str) (i : nat) (e : exception) :
  utf8_encode_from i s = Raise e ->
  exists pre c post,
    s = pre ++ c :: post /\ no_surrogate pre = true /\
    is_surrogate c = true /\ e = UnicodeEncodeError (i + List.length pre).
Proof.
  revert i. induction s as [|d s IH]; intros i H; simpl in H.
  - discriminate.
  - destruct (utf8_encode_char d) as [bs|] eqn:Ed.
    + destruct (utf8_encode_from (S i) s) as [r|e'] eqn:Es; [discriminate|].
      injection H as ->.
      destruct (IH (S i) Es) as (pre & c & post & -> & Hpre & Hc & ->).
      exists (d :: pre), c, post. repeat split; try assumption.
      * simpl. rewrite Hpre.
        destruct (is_surrogate d) eqn:Hd; [|reflexivity].
        apply utf8_encode_char_None in Hd. congruence.
      * simpl. f_equal. lia.
    + injection H as <-. apply utf8_encode_char_None in Ed.
      exists [], d, s. rewrite Nat.add_0_r. repeat split. exact Ed.
Qed.

Lemma utf8_encode_from_Return (s : str) (i j : nat) (b : bytes) :
  utf8_encode_from i s = Return b -> utf8_encode_from j s = Return b.
Proof.
  revert i j b. induction s as [|d s IH]; intros i j b H; simpl in *.
  - exact H.
  - destruct (utf8_encode_char d) as [bs|]; [|discriminate].
    destruct (utf8_encode_from (S i) s) as [r|e] eqn:Es; [|discriminate].
    rewrite (IH (S i) (S j) r Es). exact H.
Qed.

Lemma utf8_sentinel_cons (t : str) :
  str_encode_utf8 ([0x02] ++ t) =
    match utf8_encode_from 1 t with
    | Return r => Return (x02 :: r)
    | Raise e => Raise e
    end.
Proof. reflexivity. Qed.

Lemma byte_of_N_eq (n : N) (b : byte) :
  b <> x00 -> byte_of_N n = b -> n = Byte.to_N b.
Proof.
  unfold byte_of_N. intros Hb H.
  destruct (Byte.of_N n) as [b'|] eqn:E.
  - subst b'. symmetry. apply Byte.to_of_N. exact E.
  - congruence.
Qed.

Lemma to_N_byte_of_N (n : N) : n < 256 -> Byte.to_N (byte_of_N n) = n.
Proof.
  intros H. unfold byte_of_N.
  destruct (Byte.of_N n) as [b|] eqn:E.
  - apply Byte.to_of_N. exact E.
  - apply Byte.of_N_None_iff in E. lia.
Qed.

Lemma testbit_above (a n : N) : a < 2 ^ n -> N.testbit a n = false.
Proof.
  intros H. rewrite <- (N.mod_small a (2 ^ n)) by exact H.
  apply N.mod_pow2_bits_high. lia.
Qed.

(** The bits of the bytes of a sequence of several bytes: every one has bit 7
    set, and every one has a bit below that is clear. *)

Lemma continuation_bits (y : N) :
  N.testbit (N.lor 0x80 (N.land y 0x3F)) 7 = true /\
  N.testbit (N.lor 0x80 (N.land y 0x3F)) 6 = false.
Proof.
  rewrite !N.lor_spec, !N.land_spec. split.
  - reflexivity.
  - simpl. apply andb_false_r.
Qed.

Lemma lead2_bits (c : N) :
  c < 0x800 ->
  N.testbit (N.lor 0xC0 (N.shiftr c 6)) 7 = true /\
  N.testbit (N.lor 0xC0 (N.shiftr c 6)) 5 = false.
Proof.
  intros H. rewrite !N.lor_spec, !N.shiftr_spec'. split.
  - reflexivity.
  - simpl. apply testbit_above. exact H.
Qed.

Lemma lead3_bits (c : N) :
  c < 0x10000 ->
  N.testbit (N.lor 0xE0 (N.shiftr c 12)) 7 = true /\
  N.testbit (N.lor 0xE0 (N.shiftr c 12)) 4 = false.
Proof.
  intros H. rewrite !N.lor_spec, !N.shiftr_spec'. split.
  - reflexivity.
  - simpl. apply testbit_above. exact H.
Qed.

Lemma lead4_bits (c : N) :
  c < 0x110000 ->
  N.testbit (N.lor 0xF0 (N.shiftr c 18)) 3 = false.
Proof.
  intros H. rewrite !N.lor_spec, !N.shiftr_spec'.
  simpl. apply testbit_above. change (2 ^ 21) with 2097152. lia.
Qed.

Lemma lead4_bit7 (c : N) : N.testbit (N.lor 0xF0 (N.shiftr c 18)) 7 = true.
Proof. rewrite N.lor_spec. reflexivity. Qed.

(** Closes a goal where [H] says that a byte built by [byte_of_N] is a given
    byte, and [L] gives a bit of the number that the byte has not. *)
Ltac byte_clash H L :=
  apply byte_of_N_eq in H; [|discriminate];
  match type of L with
  | N.testbit ?n ?k = _ =>
      match type of H with
      | _ = ?v =>
          let H' := fresh in
          assert (H' : N.testbit n k = N.testbit v k)
            by exact (f_equal (fun u => N.testbit u k) H);
          rewrite L in H'; discriminate H'
      end
  end.

Lemma utf8_encode_char_xff (c : N) (bs : bytes) :
  c < 0x110000 -> utf8_encode_char c = Some bs -> ~ In xff bs.
Proof.
  unfold utf8_encode_char. intros Hc.
  destruct (N.ltb_spec c 0x80) as [H1|H1].
  { intros [= <-] [H|[]]. apply byte_of_N_eq in H; [|discriminate].
    simpl in H. lia. }
  destruct (N.ltb_spec c 0x800) as [H2|H2].
  { destruct (lead2_bits c H2) as [_ L], (continuation_bits c) as [_ K].
    intros [= <-] [H|[H|[]]]; [byte_clash H L|byte_clash H K]. }
  destruct ((0xD800 <=? c) && (c <? 0xE000)); [discriminate|].
  destruct (N.ltb_spec c 0x10000) as [H3|H3].
  { destruct (lead3_bits c H3) as [_ L],
      (continuation_bits (N.shiftr c 6)) as [_ K1],
      (continuation_bits c) as [_ K2].
    intros [= <-] [H|[H|[H|[]]]];
      [byte_clash H L|byte_clash H K1|byte_clash H K2]. }
  pose proof (lead4_bits c Hc) as L.
  destruct (continuation_bits (N.shiftr c 12)) as [_ K1],
    (continuation_bits (N.shiftr c 6)) as [_ K2],
    (continuation_bits c) as [_ K3].
  intros [= <-] [H|[H|[H|[H|[]]]]];
    [byte_clash H L|byte_clash H K1|byte_clash H K2|byte_clash H K3].
Qed.

Lemma utf8_encode_char_x02 (c : N) (bs : bytes) :
  utf8_encode_char c = Some bs -> (In x02 bs <-> c = 0x02).
Proof.
  unfold utf8_encode_char.
  destruct (N.ltb_spec c 0x80) as [H1|H1].
  { intros [= <-]. split.
    - intros [H|[]]. apply byte_of_N_eq in H; [|discriminate]. exact H.
    - intros ->. left. reflexivity. }
  destruct (N.ltb_spec c 0x800) as [H2|H2].
  { destruct (lead2_bits c H2) as [L _], (continuation_bits c) as [K _].
    intros [= <-]. split; [|lia].
    intros [H|[H|[]]]; [byte_clash H L|byte_clash H K]. }
  destruct ((0xD800 <=? c) && (c <? 0xE000)); [discriminate|].
  destruct (N.ltb_spec c 0x10000) as [H3|H3].
  { destruct (lead3_bits c H3) as [L _],
      (continuation_bits (N.shiftr c 6)) as [K1 _],
      (continuation_bits c) as [K2 _].
    intros [= <-]. split; [|lia].
    intros [H|[H|[H|[]]]];
      [byte_clash H L|byte_clash H K1|byte_clash H K2]. }
  pose proof (lead4_bit7 c) as L.
  destruct (continuation_bits (N.shiftr c 12)) as [K1 _],
    (continuation_bits (N.shiftr c 6)) as [K2 _],
    (continuation_bits c) as [K3 _].
  intros [= <-]. split; [|lia].
  intros [H|[H|[H|[H|[]]]]];
    [byte_clash H L|byte_clash H K1|byte_clash H K2|byte_clash H K3].
Qed.

Lemma utf8_encode_from_xff (s : str) (i : nat) (b : bytes) :
  Forall (fun c => c < 0x110000) s ->
  utf8_encode_from i s = Return b -> ~ In xff b.
Proof.
  revert i b. induction s as [|c s IH]; intros i b Hs H; simpl in H.
  - injection H as <-. intros [].
  - inversion Hs as [|? ? Hc Hs']; subst.
    destruct (utf8_encode_char c) as [bs|] eqn:Ec; [|discriminate].
    destruct (utf8_encode_from (S i) s) as [r|e] eqn:Es; [|discriminate].
    injection H as <-. intros Hin. apply in_app_or in Hin as [Hin|Hin].
    + exact (utf8_encode_char_xff c bs Hc Ec Hin).
    + exact (IH (S i) r Hs' Es Hin).
Qed.

Lemma utf8_encode_from_x02 (s : str) (i : nat) (b : bytes) :
  utf8_encode_from i s = Return b -> (In x02 b <-> In 0x02 s).
Proof.
  revert i b. induction s as [|c s IH]; intros i b H; simpl in H.
  - injection H as <-. reflexivity.
  - destruct (utf8_encode_char c) as [bs|] eqn:Ec; [|discriminate].
    destruct (utf8_encode_from (S i) s) as [r|e] eqn:Es; [|discriminate].
    injection H as <-.
    rewrite in_app_iff, (utf8_encode_char_x02 c bs Ec), (IH (S i) r Es).
    simpl. reflexivity.
Qed.

Lemma utf8_encode_from_ascii (s : str) (i : nat) :
  forallb (fun c => c <? 0x80) s = true ->
  exists b, utf8_encode_from i s = Return b /\ map Byte.to_N b = s.
Proof.
  revert i. induction s as [|c s IH]; intros i H; simpl in *.
  - exists []. split; reflexivity.
  - apply andb_true_iff in H as [Hc Hs].
    destruct (IH (S i) Hs) as (r & Er & Hr).
    unfold utf8_encode_char. rewrite Hc, Er.
    exists (byte_of_N c :: r). split; [reflexivity|].
    simpl. apply N.ltb_lt in Hc.
    rewrite to_N_byte_of_N by lia. rewrite Hr. reflexivity.
Qed.

(** ** The bytes handed to a tokenizer that takes [bytes] *)

Lemma tokenizer_arg_bytes (t : str) :
  tokenizer_arg true ([0x02] ++ t) =
    match utf8_encode_from 1 t with
    | Return r => Return (PyBytes (x02 :: r))
    | Raise e => Raise e
    end.
Proof.
  unfold tokenizer_arg. rewrite utf8_sentinel_cons.
  destruct (utf8_encode_from 1 t); reflexivity.
Qed.

(** X3.  With [accepts_bytes] true, the tokenizer is called on the byte
    [0x02] followed by the UTF-8 encoding of the text:
    [(prefix_string + s).encode("utf-8")] is [b"\x02" + s.encode("utf-8")]. *)
Theorem X3_bytes_argument (t : str) (b : bytes) :
  str_encode_utf8 t = Return b ->
  tokenizer_arg true ([0x02] ++ t) = Return (PyBytes (x02 :: b)).
Proof.
  intros H. rewrite tokenizer_arg_bytes.
  rewrite (utf8_encode_from_Return t 0 1 b H). reflexivity.
Qed.

(** X4.  For an ASCII text the tokenizer that takes [bytes] is called on one
    byte per character, the sentinel first, each with the number of its
    character. *)
Theorem X4_ascii_argument (t : str) :
  forallb (fun c => c <? 0x80) t = true ->
  exists b,
    tokenizer_arg true ([0x02] ++ t) = Return (PyBytes b) /\
    map Byte.to_N b = 0x02 :: t.
Proof.
  intros H. rewrite tokenizer_arg_bytes.
  destruct (utf8_encode_from_ascii t 1 H) as (r & -> & Hr).
  exists (x02 :: r). split; [reflexivity|]. simpl. rewrite Hr. reflexivity.
Qed.

(** X5.  The byte [0xFF] is in no argument computed for a tokenizer that
    takes [bytes]: the byte the comment in [__init__] would prefer as a
    sentinel never comes from a text. *)
Theorem X5_argument_never_xff (t : str) (x : pyarg) :
  Forall (fun c => c < 0x110000) t ->
  tokenizer_arg true ([0x02] ++ t) = Return x ->
  exists b, x = PyBytes b /\ ~ In xff b.
Proof.
  intros Ht H. rewrite tokenizer_arg_bytes in H.
  destruct (utf8_encode_from 1 t) as [r|e] eqn:Er; [|discriminate].
  injection H as <-. exists (x02 :: r). split; [reflexivity|].
  intros [Hin|Hin]; [discriminate|].
  exact (utf8_encode_from_xff t 1 r Ht Er Hin).
Qed.

(** X6.  The argument computed for a tokenizer that takes [bytes] starts with
    the byte [0x02] of the sentinel, and that byte occurs again in it exactly
    when the text has the character ["\x02"] itself. *)
Theorem X6_sentinel_byte_again (t : str) (x : pyarg) :
  tokenizer_arg true ([0x02] ++ t) = Return x ->
  exists r, x = PyBytes (x02 :: r) /\ (In x02 r <-> In 0x02 t).
Proof.
  intros H. rewrite tokenizer_arg_bytes in H.
  destruct (utf8_encode_from 1 t) as [r|e] eqn:Er; [|discriminate].
  injection H as <-. exists r. split; [reflexivity|].
  exact (utf8_encode_from_x02 t 1 r Er).
Qed.

Section FurtherProperties.

Variable St : Type.

Implicit Types (g : Tokenizer St) (a : TokenizerWrapper St) (st : St).
Implicit Types (w : World St) (s t : str) (pt : list TokenId).

(** A constructed wrapper, with the calls that made it. *)
Lemma constructed_calls g a :
  constructed g a ->
  exists st0 pt,
    let probe := tk_call g (PyBytes b_test) st0 in
    let ab := is_return (fst probe) in
    a = initialised g ab pt /\
    fst (tk_call g (sentinel_arg ab) (snd probe)) = Return pt.
Proof.
  intros (st0 & st' & H). rewrite TokenizerWrapper_new_eq in H. cbv zeta in H.
  destruct (fst (tk_call g (sentinel_arg _) _)) as [pt|e] eqn:E; [|discriminate].
  injection H as <- _. exists st0, pt. cbv zeta. split; [reflexivity|exact E].
Qed.

Lemma sentinel_arg_eq (ab : bool) :
  tokenizer_arg ab ([0x02] ++ []) = Return (sentinel_arg ab).
Proof. destruct ab; reflexivity. Qed.

(** X1.  With [accepts_bytes] true, a text with a surrogate makes the call
    raise [UnicodeEncodeError] without calling the tokenizer; the position in
    the exception is that of the first surrogate in the text, plus one for
    the sentinel. *)
Theorem X1_surrogate_raises g a st (pre : str) (c : N) (post : str) :
  constructed g a ->
  accepts_bytes a = Some true ->
  no_surrogate pre = true ->
  is_surrogate c = true ->
  __call__ (pre ++ c :: post) (Build_World st a) =
    (Raise (UnicodeEncodeError (S (List.length pre))), Build_World st a).
Proof.
  intros Hc Hab Hpre Hsur.
  destruct (constructed_initialised St g a Hc) as (ab & pt & ->).
  injection Hab as ->.
  rewrite call_op_arg, tokenizer_arg_bytes.
  rewrite (utf8_encode_from_surrogate pre c post 1 Hpre Hsur). reflexivity.
Qed.

(** X2.  The ways a call on a constructed wrapper raises are three: the
    conversion to bytes met a surrogate, and the tokenizer was not called; or
    the tokenizer raised, and the call raises the same; or the tokenizer
    returned tokens that do not start with [prefix_tokens], and the call
    raises [AssertionError].  A call raises [AttributeError] only when the
    tokenizer does. *)
Theorem X2_call_failures g a ab pt st t (e : exception) w' :
  constructed g a ->
  accepts_bytes a = Some ab ->
  prefix_tokens a = Some pt ->
  __call__ t (Build_World st a) = (Raise e, w') ->
  (ab = true /\ w' = Build_World st a /\
   exists pre c post,
     t = pre ++ c :: post /\ no_surrogate pre = true /\
     is_surrogate c = true /\
     e = UnicodeEncodeError (S (List.length pre)))
  \/
  (exists x st',
     tokenizer_arg ab ([0x02] ++ t) = Return x /\
     w' = Build_World st' a /\
     (tk_call g x st = (Raise e, st') \/
      exists toks,
        tk_call g x st = (Return toks, st') /\
        slice_to (List.length pt) toks <> pt /\
        e = AssertionError None)).
Proof.
  intros Hc Hab Hpt Hcall.
  destruct (constructed_initialised St g a Hc) as (ab' & pt' & ->).
  injection Hab as ->. injection Hpt as ->.
  rewrite call_op_arg in Hcall.
  destruct (tokenizer_arg ab ([0x02] ++ t)) as [x|e'] eqn:Harg.
  - right. cbv zeta in Hcall.
    destruct (tk_call g x st) as [[toks|e'] st'] eqn:Htk; cbn [fst snd] in Hcall.
    + destruct (list_eq (slice_to (List.length pt) toks) pt) eqn:Heq;
        [discriminate|].
      injection Hcall as <- <-.
      exists x, st'. split; [reflexivity|]. split; [reflexivity|].
      right. exists toks. split; [exact Htk|]. split; [|reflexivity].
      apply list_eq_false_iff. exact Heq.
    + injection Hcall as <- <-.
      exists x, st'. split; [reflexivity|]. split; [reflexivity|].
      left. exact Htk.
  - left. injection Hcall as <- <-.
    destruct ab; [|discriminate].
    rewrite tokenizer_arg_bytes in Harg.
    destruct (utf8_encode_from 1 t) as [r|e''] eqn:Er; [discriminate|].
    injection Harg as ->.
    destruct (utf8_encode_from_Raise t 1 e' Er)
      as (pre & c & post & -> & Hpre & Hsur & ->).
    split; [reflexivity|]. split; [reflexivity|].
    exists pre, c, post. repeat split; assumption.
Qed.

(** X7.  Around a tokenizer that behaves as a fixed function, construction
    has the same outcome whatever state the tokenizer is in, the same wrapper
    or the same exception, and a call on a constructed wrapper has the same
    outcome whatever state the tokenizer is in. *)
Theorem X7_fixed_function_reproducible g :
  fixed_function g ->
  (forall st st', fst (TokenizerWrapper_new g st) =
                  fst (TokenizerWrapper_new g st'))
  /\
  (forall a, constructed g a ->
     forall t st st',
       fst (__call__ t (Build_World st a)) =
       fst (__call__ t (Build_World st' a))).
Proof.
  intros Hg. split.
  - intros st st'. rewrite !TokenizerWrapper_new_eq. cbv zeta.
    rewrite (Hg (PyBytes b_test) st st').
    rewrite (Hg (sentinel_arg _) (snd (tk_call g (PyBytes b_test) st))
               (snd (tk_call g (PyBytes b_test) st'))).
    destruct (fst (tk_call g (sentinel_arg _) _)); reflexivity.
  - intros a Hc t st st'.
    destruct (constructed_initialised St g a Hc) as (ab & pt & ->).
    rewrite !call_op_outcome.
    rewrite (encode_string_outcome_fixed St g ab pt _ st st' Hg). reflexivity.
Qed.

(** X8.  Around a tokenizer that behaves as a fixed function,
    [prefix_tokens] is what the tokenizer returns for the sentinel alone: if
    the tokenizer returns [p] for the sentinel and [p] followed by [rest] for
    the sentinel followed by [t], the call returns [rest]. *)
Theorem X8_strips_sentinel_encoding g a ab st t x (p rest : list TokenId) st1 st2 :
  fixed_function g ->
  constructed g a ->
  accepts_bytes a = Some ab ->
  fst (tk_call g (sentinel_arg ab) st1) = Return p ->
  tokenizer_arg ab ([0x02] ++ t) = Return x ->
  fst (tk_call g x st2) = Return (p ++ rest) ->
  fst (__call__ t (Build_World st a)) = Return rest.
Proof.
  intros Hg Hc Hab Hp Harg Hx.
  destruct (constructed_calls g a Hc) as (st0 & pt & Hinit & Hcal).
  cbv zeta in Hinit, Hcal. subst a. injection Hab as <-.
  rewrite (Hg _ _ st1), Hp in Hcal. injection Hcal as <-.
  rewrite call_op_arg, Harg. cbv zeta.
  rewrite (Hg x st st2), Hx.
  rewrite slice_to_app, list_eq_refl, slice_from_app. reflexivity.
Qed.

(** X9.  Around a tokenizer that behaves as a fixed function, the call on
    the empty text returns the empty list, on every constructed wrapper and
    in every state of the tokenizer. *)
Theorem X9_empty_text_fixed g a st :
  fixed_function g ->
  constructed g a ->
  fst (__call__ [] (Build_World st a)) = Return [].
Proof.
  intros Hg Hc.
  destruct (constructed_calls g a Hc) as (st0 & pt & Hinit & Hcal).
  cbv zeta in Hinit, Hcal. subst a.
  rewrite call_op_arg, sentinel_arg_eq. cbv zeta.
  rewrite (Hg _ st (snd (tk_call g (PyBytes b_test) st0))), Hcal.
  unfold slice_to, slice_from.
  rewrite firstn_all, skipn_all, list_eq_refl. reflexivity.
Qed.

Lemma logged_call g (x : pyarg) st (log : list pyarg) :
  tk_call (logged g) x (st, log) =
    (fst (tk_call g x st), (snd (tk_call g x st), log ++ [x])).
Proof. simpl. destruct (tk_call g x st). reflexivity. Qed.

(** X10.  The constructor calls the tokenizer twice and no more: first on
    [b"test"], then on the sentinel, as [bytes] when the first call returned
    and as [str] when it raised. *)
Theorem X10_constructor_calls g st (log : list pyarg) :
  let ab := is_return (fst (tk_call g (PyBytes b_test) st)) in
  snd (snd (TokenizerWrapper_new (logged g) (st, log))) =
    log ++ [PyBytes b_test; sentinel_arg ab].
Proof.
  cbv zeta. rewrite TokenizerWrapper_new_eq. cbv zeta.
  rewrite !logged_call. cbn [fst snd]. rewrite logged_call. cbn [fst snd].
  rewrite <- app_assoc.
  destruct (fst (tk_call g (sentinel_arg _) _)); reflexivity.
Qed.

(** X11.  A call on a constructed wrapper calls the tokenizer once, on the
    argument computed from the sentinel followed by the text, and not at all
    when the conversion to bytes raises; it never repeats the probe. *)
Theorem X11_one_call_per_encode g (a : TokenizerWrapper (St * list pyarg))
    ab st (log : list pyarg) t :
  constructed (logged g) a ->
  accepts_bytes a = Some ab ->
  snd (tok_state (snd (__call__ t (Build_World (st, log) a)))) =
    log ++ match tokenizer_arg ab ([0x02] ++ t) with
           | Return x => [x]
           | Raise _ => []
           end.
Proof.
  intros Hc Hab.
  destruct (constructed_initialised _ (logged g) a Hc) as (ab' & pt & ->).
  injection Hab as ->.
  rewrite call_op_arg.
  destruct (tokenizer_arg ab ([0x02] ++ t)) as [x|e].
  - cbv zeta. rewrite logged_call. cbn [fst snd].
    destruct (fst (tk_call g x st)) as [toks|e]; [|reflexivity].
    destruct (list_eq _ pt); reflexivity.
  - simpl. rewrite app_nil_r. reflexivity.
Qed.

End FurtherProperties.

(** ** The further properties on concrete tokenizers *)

(** The text "a", a lone surrogate, "b" through the byte-level wrapper. *)
Lemma X1_surrogate_raises_witness :
  let a := initialised Mock.byte_level true [2%Z] in
  constructed Mock.byte_level a /\
  accepts_bytes a = Some true /\
  no_surrogate [0x61] = true /\
  is_surrogate 0xD800 = true /\
  __call__ ([0x61] ++ 0xD800 :: [0x62]) (Build_World 2%nat a) =
    (Raise (UnicodeEncodeError 2), Build_World 2%nat a).
Proof.
  cbv zeta.
  split; [exact byte_level_constructed|].
  do 3 (split; [reflexivity|]).
  apply (X1_surrogate_raises nat Mock.byte_level _ 2%nat [0x61] 0xD800 [0x62]).
  - exact byte_level_constructed.
  - reflexivity.
  - reflexivity.
  - reflexivity.
Defined.

(** The text "a" through the merging tokenizer raises in the third way. *)
Lemma X2_call_failures_witness :
  let a := initialised Mock.merging false [2%Z] in
  constructed Mock.merging a /\
  accepts_bytes a = Some false /\
  prefix_tokens a = Some [2%Z] /\
  __call__ [0x61] (Build_World 2%nat a) =
    (Raise (AssertionError None), Build_World 3%nat a) /\
  exists x st',
    tokenizer_arg false ([0x02] ++ [0x61]) = Return x /\
    Build_World 3%nat a = Build_World st' a /\
    exists toks,
      tk_call Mock.merging x 2%nat = (Return toks, st') /\
      slice_to (List.length [2%Z]) toks <> [2%Z] /\
      AssertionError None = AssertionError None.
Proof.
  cbv zeta.
  split; [exact merging_constructed|].
  do 3 (split; [reflexivity|]).
  destruct (X2_call_failures nat Mock.merging _ false [2%Z] 2%nat [0x61]
              (AssertionError None)
              (Build_World 3%nat (initialised Mock.merging false [2%Z]))
              merging_constructed eq_refl eq_refl eq_refl)
    as [(Hab & _)|(x & st' & Harg & Hw & [Htk|Hmis])].
  - discriminate Hab.
  - injection Harg as <-. simpl in Htk. discriminate Htk.
  - exists x, st'. split; [exact Harg|]. split; [exact Hw|]. exact Hmis.
Defined.

(** The text "é". *)
Lemma X3_bytes_argument_witness :
  str_encode_utf8 [0xE9] = Return [xc3; xa9] /\
  tokenizer_arg true ([0x02] ++ [0xE9]) = Return (PyBytes [x02; xc3; xa9]).
Proof.
  split; [reflexivity|].
  apply (X3_bytes_argument [0xE9] [xc3; xa9]). reflexivity.
Defined.

(** The text "hi". *)
Lemma X4_ascii_argument_witness :
  forallb (fun c => c <? 0x80) [0x68; 0x69] = true /\
  exists b,
    tokenizer_arg true ([0x02] ++ [0x68; 0x69]) = Return (PyBytes b) /\
    map Byte.to_N b = [0x02; 0x68; 0x69].
Proof.
  split; [reflexivity|].
  apply (X4_ascii_argument [0x68; 0x69]). reflexivity.
Defined.

(** The euro sign and the last code point. *)
Lemma X5_argument_never_xff_witness :
  Forall (fun c => c < 0x110000) [0x20AC; 0x10FFFF] /\
  tokenizer_arg true ([0x02] ++ [0x20AC; 0x10FFFF]) =
    Return (PyBytes [x02; xe2; x82; xac; xf4; x8f; xbf; xbf]) /\
  exists b,
    PyBytes [x02; xe2; x82; xac; xf4; x8f; xbf; xbf] = PyBytes b /\
    ~ In xff b.
Proof.
  assert (H : Forall (fun c => c < 0x110000) [0x20AC; 0x10FFFF])
    by (repeat constructor).
  split; [exact H|].
  split; [reflexivity|].
  apply (X5_argument_never_xff [0x20AC; 0x10FFFF] _ H). reflexivity.
Defined.

(** The text "a" followed by the character of the sentinel. *)
Lemma X6_sentinel_byte_again_witness :
  tokenizer_arg true ([0x02] ++ [0x61; 0x02]) =
    Return (PyBytes [x02; x61; x02]) /\
  exists r,
    PyBytes [x02; x61; x02] = PyBytes (x02 :: r) /\
    (In x02 r <-> In 0x02 [0x61; 0x02]).
Proof.
  split; [reflexivity|].
  apply (X6_sentinel_byte_again [0x61; 0x02]). reflexivity.
Defined.

(** The character-level tokenizer, in the states 0 and 5, 2 and 9. *)
Lemma X7_fixed_function_reproducible_witness :
  fixed_function Mock.char_level /\
  fst (TokenizerWrapper_new Mock.char_level 0%nat) =
  fst (TokenizerWrapper_new Mock.char_level 5%nat) /\
  constructed Mock.char_level (initialised Mock.char_level false [2%Z]) /\
  fst (__call__ [0x68; 0x69]
         (Build_World 2%nat (initialised Mock.char_level false [2%Z]))) =
  fst (__call__ [0x68; 0x69]
         (Build_World 9%nat (initialised Mock.char_level false [2%Z]))).
Proof.
  split; [exact char_level_fixed_function|].
  split.
  - apply (proj1 (X7_fixed_function_reproducible nat Mock.char_level
                    char_level_fixed_function)).
  - split; [exact char_level_constructed|].
    apply (proj2 (X7_fixed_function_reproducible nat Mock.char_level
                    char_level_fixed_function)).
    exact char_level_constructed.
Defined.

(** The text "hi" through the character-level tokenizer. *)
Lemma X8_strips_sentinel_encoding_witness :
  let a := initialised Mock.char_level false [2%Z] in
  fixed_function Mock.char_level /\
  constructed Mock.char_level a /\
  accepts_bytes a = Some false /\
  fst (tk_call Mock.char_level (sentinel_arg false) 7%nat) = Return [2%Z] /\
  tokenizer_arg false ([0x02] ++ [0x68; 0x69]) =
    Return (PyStr [0x02; 0x68; 0x69]) /\
  fst (tk_call Mock.char_level (PyStr [0x02; 0x68; 0x69]) 9%nat) =
    Return ([2%Z] ++ [104%Z; 105%Z]) /\
  fst (__call__ [0x68; 0x69] (Build_World 2%nat a)) = Return [104%Z; 105%Z].
Proof.
  cbv zeta.
  split; [exact char_level_fixed_function|].
  split; [exact char_level_constructed|].
  do 4 (split; [reflexivity|]).
  apply (X8_strips_sentinel_encoding nat Mock.char_level _ false 2%nat
           [0x68; 0x69] (PyStr [0x02; 0x68; 0x69]) [2%Z] [104%Z; 105%Z]
           7%nat 9%nat).
  - exact char_level_fixed_function.
  - exact char_level_constructed.
  - reflexivity.
  - reflexivity.
  - reflexivity.
  - reflexivity.
Defined.

(** The empty text through the character-level tokenizer, in state 9. *)
Lemma X9_empty_text_fixed_witness :
  let a := initialised Mock.char_level false [2%Z] in
  fixed_function Mock.char_level /\
  constructed Mock.char_level a /\
  fst (__call__ [] (Build_World 9%nat a)) = Return [].
Proof.
  cbv zeta.
  split; [exact char_level_fixed_function|].
  split; [exact char_level_constructed|].
  apply (X9_empty_text_fixed nat Mock.char_level _ 9%nat).
  - exact char_level_fixed_function.
  - exact char_level_constructed.
Defined.

Lemma logged_char_level_constructed :
  constructed (logged Mock.char_level)
    (initialised (logged Mock.char_level) false [2%Z]).
Proof.
  exists (0%nat, []), (2%nat, [PyBytes b_test; PyStr [0x02]]). reflexivity.
Qed.

(** The text "hi" through the character-level tokenizer with a log. *)
Lemma X11_one_call_per_encode_witness :
  let a := initialised (logged Mock.char_level) false [2%Z] in
  let log := [PyBytes b_test; PyStr [0x02]] in
  constructed (logged Mock.char_level) a /\
  accepts_bytes a = Some false /\
  snd (tok_state (snd (__call__ [0x68; 0x69] (Build_World (2%nat, log) a)))) =
    log ++ [PyStr [0x02; 0x68; 0x69]].
Proof.
  cbv zeta.
  split; [exact logged_char_level_constructed|].
  split; [reflexivity|].
  apply (X11_one_call_per_encode nat Mock.char_level _ false 2%nat
           [PyBytes b_test; PyStr [0x02]] [0x68; 0x69]).
  - exact logged_char_level_constructed.
  - reflexivity.
Defined.
